(** * Traverse VS Code extension: a shallow embedding of the client runtime

    The development follows [src/extension.ts] (binary lookup, session
    start-up, the analysis commands and the result handler) and the mock
    language server of the test suite ([MockLSPServer]).

    JavaScript values of type [any] are embedded as [jsval]; text is
    embedded as [string], one [ascii] per UTF-8 byte, which coincides with
    JavaScript's UTF-16 code units on ASCII text.  The host (VS Code, the
    file system, the user, the language server) is a record of answers
    [Host]; what the extension does to it is recorded in [World]. *)

From Stdlib Require Import ZArith Ascii String List Bool Lia DecimalString.
From stdpp Require Import gmap strings.

Open Scope string_scope.
Open Scope Z_scope.

#[local] Arguments String.append !_ _ / : simpl nomatch.

(** ** Characters and strings, as [String.prototype] has them *)

Module Js.

Definition CR : ascii := ascii_of_nat 13.
Definition LF : ascii := ascii_of_nat 10.
Definition CRLF : string := String CR (String LF "").
Definition NL : string := String LF "".
Definition QUOTE : string := String (ascii_of_nat 34) "".

Definition code (c : ascii) : Z := Z.of_nat (nat_of_ascii c).

Definition is_digit (c : ascii) : bool := (48 <=? code c) && (code c <=? 57).

(** White space of [trim] and of the regular expression class [\s],
    restricted to ASCII: TAB, LF, VT, FF, CR and SPACE. *)
Definition is_space (c : ascii) : bool :=
  ((9 <=? code c) && (code c <=? 13)) || (code c =? 32).

(** [s.startsWith(p)] *)
Fixpoint startsWith (s p : string) {struct p} : bool :=
  match p with
  | "" => true
  | String a p' =>
      match s with
      | "" => false
      | String b s' => Ascii.eqb a b && startsWith s' p'
      end
  end.

(** [s.includes(t)] *)
Fixpoint includes (s t : string) : bool :=
  startsWith s t ||
  match s with
  | "" => false
  | String _ s' => includes s' t
  end.

(** [s.substring(n)] *)
Fixpoint substring (n : nat) (s : string) : string :=
  match n, s with
  | O, _ => s
  | S _, "" => ""
  | S k, String _ s' => substring k s'
  end.

Fixpoint trimStart (s : string) : string :=
  match s with
  | "" => ""
  | String c s' => if is_space c then trimStart s' else s
  end.

Fixpoint trimEnd (s : string) : string :=
  match s with
  | "" => ""
  | String c s' =>
      match trimEnd s' with
      | "" => if is_space c then "" else String c ""
      | r => String c r
      end
  end.

(** [s.trim()] *)
Definition trim (s : string) : string := trimEnd (trimStart s).

(** [s.split(sep)] for a non-empty separator.  [skip] counts the
    characters of a separator just matched that are still to be passed. *)
Fixpoint split_go (sep : string) (skip : nat) (s : string) : list string :=
  match s with
  | "" => [""]
  | String c s' =>
      match skip with
      | S k => split_go sep k s'
      | O =>
          if startsWith s sep
          then "" :: split_go sep (Nat.pred (String.length sep)) s'
          else match split_go sep O s' with
               | h :: t => String c h :: t
               | [] => [String c ""]
               end
      end
  end.

Definition split (s sep : string) : list string := split_go sep O s.

(** [parts.join(sep)] *)
Fixpoint join (parts : list string) (sep : string) : string :=
  match parts with
  | [] => ""
  | [p] => p
  | p :: rest => p ++ sep ++ join rest sep
  end.

Definition lower (c : ascii) : ascii :=
  if (65 <=? code c) && (code c <=? 90)
  then ascii_of_nat (nat_of_ascii c + 32)
  else c.

(** [s.toLowerCase()] on ASCII text *)
Fixpoint toLowerCase (s : string) : string :=
  match s with
  | "" => ""
  | String c s' => String (lower c) (toLowerCase s')
  end.

(** [s.replace(/\s+/g, r)]: every maximal run of white space becomes [r].
    [inrun] tells that the previous character was white space. *)
Fixpoint replace_spaces_go (r : string) (inrun : bool) (s : string) : string :=
  match s with
  | "" => ""
  | String c s' =>
      if is_space c
      then (if inrun then "" else r) ++ replace_spaces_go r true s'
      else String c (replace_spaces_go r false s')
  end.

Definition replace_spaces (s r : string) : string := replace_spaces_go r false s.

(** [s.replace(/[:.]/g, '-')] *)
Fixpoint replace_colon_dot (s : string) : string :=
  match s with
  | "" => ""
  | String c s' =>
      String (if (code c =? 58) || (code c =? 46) then "-"%char else c)
             (replace_colon_dot s')
  end.

(** A character does not occur in a string. *)
Fixpoint lacks (c : ascii) (s : string) : bool :=
  match s with
  | "" => true
  | String d s' => negb (Ascii.eqb c d) && lacks c s'
  end.

Fixpoint all_chars (p : ascii -> bool) (s : string) : bool :=
  match s with
  | "" => true
  | String c s' => p c && all_chars p s'
  end.

End Js.

(** ** JavaScript values *)

(** A number is kept as the exact decimal [m * 10^e] that its literal
    denotes; the rounding of IEEE doubles is not modelled.  [NaN] only
    arises from [parseInt], which returns an [option]. *)
#[warnings="-register-all"]
Inductive jsval : Type :=
| JUndef
| JNull
| JBool (b : bool)
| JNum (m e : Z)
| JStr (s : string)
| JArr (xs : list jsval)
| JObj (fields : list (string * jsval)).

(** ToBoolean *)
Definition truthy (v : jsval) : bool :=
  match v with
  | JUndef | JNull => false
  | JBool b => b
  | JNum m _ => negb (m =? 0)
  | JStr s => negb (String.eqb s "")
  | JArr _ | JObj _ => true
  end.

Fixpoint assoc (k : string) (fields : list (string * jsval)) : option jsval :=
  match fields with
  | [] => None
  | (k', v) :: rest => if String.eqb k k' then Some v else assoc k rest
  end.

(** [v.k] for a data property [k]; on anything but an object with that
    own property the access yields [undefined].  (On [null] and
    [undefined] JavaScript throws; the code guards every access.) *)
Definition get (v : jsval) (k : string) : jsval :=
  match v with
  | JObj fields => match assoc k fields with Some x => x | None => JUndef end
  | _ => JUndef
  end.

(** [o[k] = v] on the field list of an object. *)
Fixpoint put (k : string) (v : jsval) (fields : list (string * jsval))
  : list (string * jsval) :=
  match fields with
  | [] => [(k, v)]
  | (k', v') :: rest =>
      if String.eqb k k' then (k, v) :: rest else (k', v') :: put k v rest
  end.

(** ** [JSON.parse]

    A recursive-descent reader of the JSON grammar (ECMA-404): literals,
    numbers, strings with escapes, arrays and objects.  It returns [None]
    where [JSON.parse] throws a [SyntaxError]. *)

Module Json.
Import Js.

Definition is_ws (c : ascii) : bool :=
  (code c =? 32) || (code c =? 9) || (code c =? 10) || (code c =? 13).

Fixpoint skip_ws (s : string) : string :=
  match s with
  | "" => ""
  | String c s' => if is_ws c then skip_ws s' else s
  end.

Fixpoint strip (p s : string) : option string :=
  match p, s with
  | "", _ => Some s
  | String a p', String b s' => if Ascii.eqb a b then strip p' s' else None
  | String _ _, "" => None
  end.

Fixpoint take_digits (s : string) : string * string :=
  match s with
  | "" => ("", "")
  | String c s' =>
      if is_digit c
      then let (d, r) := take_digits s' in (String c d, r)
      else ("", s)
  end.

Fixpoint digits_value (acc : Z) (ds : string) : Z :=
  match ds with
  | "" => acc
  | String c ds' => digits_value (10 * acc + (code c - 48)) ds'
  end.

(** number = [-] int [frac] [exp]; int is [0] or a digit 1-9 followed by
    digits. *)
Definition parse_number (s : string) : option (jsval * string) :=
  let (neg, s1) :=
    match s with
    | String "-" r => (true, r)
    | _ => (false, s)
    end in
  let (ip, s2) :=
    match s1 with
    | String "0" r => ("0", r)
    | _ => take_digits s1
    end in
  if String.eqb ip "" then None else
  let frac :=
    match s2 with
    | String "." r =>
        let (fp, s3) := take_digits r in
        if String.eqb fp "" then None else Some (fp, s3)
    | _ => Some ("", s2)
    end in
  match frac with
  | None => None
  | Some (fp, s3) =>
      let expo :=
        match s3 with
        | String c r =>
            if (code c =? 101) || (code c =? 69) then
              let (eneg, r1) :=
                match r with
                | String "-" r' => (true, r')
                | String "+" r' => (false, r')
                | _ => (false, r)
                end in
              let (ep, s4) := take_digits r1 in
              if String.eqb ep "" then None
              else Some ((if eneg then -1 else 1) * digits_value 0 ep, s4)
            else Some (0, s3)
        | "" => Some (0, s3)
        end in
      match expo with
      | None => None
      | Some (ex, s4) =>
          let mant := digits_value 0 (ip ++ fp) in
          Some (JNum (if neg then - mant else mant)
                     (ex - Z.of_nat (String.length fp)), s4)
      end
  end.

Definition hex_value (c : ascii) : option Z :=
  let n := code c in
  if (48 <=? n) && (n <=? 57) then Some (n - 48)
  else if (97 <=? n) && (n <=? 102) then Some (n - 87)
  else if (65 <=? n) && (n <=? 70) then Some (n - 55)
  else None.

Definition hex4 (s : string) : option (Z * string) :=
  match s with
  | String a (String b (String c (String d r))) =>
      match hex_value a, hex_value b, hex_value c, hex_value d with
      | Some x, Some y, Some z, Some w => Some (((x * 16 + y) * 16 + z) * 16 + w, r)
      | _, _, _, _ => None
      end
  | _ => None
  end.

Definition byte (n : Z) : ascii := ascii_of_nat (Z.to_nat n).

(** The UTF-8 bytes of a code point. *)
Definition utf8 (cp : Z) : string :=
  if cp <? 128 then String (byte cp) ""
  else if cp <? 2048 then
    String (byte (192 + cp / 64)) (String (byte (128 + cp mod 64)) "")
  else if cp <? 65536 then
    String (byte (224 + cp / 4096))
      (String (byte (128 + (cp / 64) mod 64))
         (String (byte (128 + cp mod 64)) ""))
  else
    String (byte (240 + cp / 262144))
      (String (byte (128 + (cp / 4096) mod 64))
         (String (byte (128 + (cp / 64) mod 64))
            (String (byte (128 + cp mod 64)) ""))).

(** The characters of a string literal after its opening quote. *)
Fixpoint parse_chars (fuel : nat) (s : string) : option (string * string) :=
  match fuel with
  | O => None
  | S f =>
      match s with
      | "" => None
      | String c r =>
          if code c =? 34 then Some ("", r)
          else if code c =? 92 then
            match r with
            | "" => None
            | String e r' =>
                let simple (x : Z) :=
                  match parse_chars f r' with
                  | Some (t, rest) => Some (String (byte x) t, rest)
                  | None => None
                  end in
                if code e =? 34 then simple 34
                else if code e =? 92 then simple 92
                else if code e =? 47 then simple 47
                else if code e =? 98 then simple 8
                else if code e =? 102 then simple 12
                else if code e =? 110 then simple 10
                else if code e =? 114 then simple 13
                else if code e =? 116 then simple 9
                else if code e =? 117 then
                  match hex4 r' with
                  | None => None
                  | Some (hi, r1) =>
                      let pair :=
                        if (55296 <=? hi) && (hi <=? 56319) then
                          match strip "\u" r1 with
                          | Some r2 =>
                              match hex4 r2 with
                              | Some (lo, r3) =>
                                  if (56320 <=? lo) && (lo <=? 57343)
                                  then Some (65536 + (hi - 55296) * 1024 + (lo - 56320), r3)
                                  else None
                              | None => None
                              end
                          | None => None
                          end
                        else None in
                      let (cp, r4) :=
                        match pair with
                        | Some q => q
                        | None => (hi, r1)
                        end in
                      match parse_chars f r4 with
                      | Some (t, rest) => Some (utf8 cp ++ t, rest)
                      | None => None
                      end
                  end
                else None
            end
          else if code c <? 32 then None
          else
            match parse_chars f r with
            | Some (t, rest) => Some (String c t, rest)
            | None => None
            end
      end
  end.

Definition parse_string (s : string) : option (string * string) :=
  parse_chars (S (String.length s)) s.

Fixpoint parse_value (fuel : nat) (s : string) {struct fuel}
  : option (jsval * string) :=
  match fuel with
  | O => None
  | S f =>
      match skip_ws s with
      | "" => None
      | String c r as s0 =>
          if code c =? 123 then
            match skip_ws r with
            | String "}" r' => Some (JObj [], r')
            | r0 =>
                match parse_members f r0 with
                | Some (fs, rest) => Some (JObj fs, rest)
                | None => None
                end
            end
          else if code c =? 91 then
            match skip_ws r with
            | String "]" r' => Some (JArr [], r')
            | r0 =>
                match parse_elements f r0 with
                | Some (xs, rest) => Some (JArr xs, rest)
                | None => None
                end
            end
          else if code c =? 34 then
            match parse_string r with
            | Some (t, rest) => Some (JStr t, rest)
            | None => None
            end
          else
            match strip "true" s0, strip "false" s0, strip "null" s0 with
            | Some rest, _, _ => Some (JBool true, rest)
            | _, Some rest, _ => Some (JBool false, rest)
            | _, _, Some rest => Some (JNull, rest)
            | None, None, None => parse_number s0
            end
      end
  end
with parse_elements (fuel : nat) (s : string) {struct fuel}
  : option (list jsval * string) :=
  match fuel with
  | O => None
  | S f =>
      match parse_value f s with
      | None => None
      | Some (v, rest) =>
          match skip_ws rest with
          | String "," r =>
              match parse_elements f r with
              | Some (vs, rest') => Some (v :: vs, rest')
              | None => None
              end
          | String "]" r => Some ([v], r)
          | _ => None
          end
      end
  end
with parse_members (fuel : nat) (s : string) {struct fuel}
  : option (list (string * jsval) * string) :=
  match fuel with
  | O => None
  | S f =>
      match skip_ws s with
      | String q r =>
          if negb (code q =? 34) then None else
          match parse_string r with
          | None => None
          | Some (k, r1) =>
              match skip_ws r1 with
              | String ":" r2 =>
                  match parse_value f r2 with
                  | None => None
                  | Some (v, r3) =>
                      match skip_ws r3 with
                      | String "," r4 =>
                          match parse_members f r4 with
                          | Some (fs, rest) => Some ((k, v) :: fs, rest)
                          | None => None
                          end
                      | String "}" r4 => Some ([(k, v)], r4)
                      | _ => None
                      end
                  end
              | _ => None
              end
          end
      | "" => None
      end
  end.

(** A repeated name keeps its last value, at the place of the first. *)
Fixpoint dedup (v : jsval) : jsval :=
  match v with
  | JArr xs => JArr (map dedup xs)
  | JObj fs =>
      JObj (fold_left (fun acc kv => put (fst kv) (dedup (snd kv)) acc) fs [])
  | _ => v
  end.

Definition parse (text : string) : option jsval :=
  match parse_value (2 * String.length text + 2) text with
  | Some (v, rest) =>
      if String.eqb (skip_ws rest) "" then Some (dedup v) else None
  | None => None
  end.

End Json.

(** ** The mock language server of the test suite ([MockLSPServer]) *)

Module MockLSPServer.
Import Js.

Definition radix_digit (radix : Z) (c : ascii) : option Z :=
  match Json.hex_value c with
  | Some d => if d <? radix then Some d else None
  | None => None
  end.

Fixpoint radix_digits (radix : Z) (s : string) : list Z :=
  match s with
  | "" => []
  | String c s' =>
      match radix_digit radix c with
      | Some d => d :: radix_digits radix s'
      | None => []
      end
  end.

(** [parseInt(str)] without a radix: leading white space, a sign, an
    optional [0x] prefix, then the longest run of digits.  [None] is
    [NaN]. *)
Definition parseInt (str : string) : option Z :=
  let s := trimStart str in
  let (sign, s1) :=
    match s with
    | String "-" r => (-1, r)
    | String "+" r => (1, r)
    | _ => (1, s)
    end in
  let (radix, s2) :=
    if startsWith s1 "0x" || startsWith s1 "0X"
    then (16, substring 2 s1)
    else (10, s1) in
  match radix_digits radix s2 with
  | [] => None
  | ds => Some (sign * fold_left (fun acc d => radix * acc + d) ds 0)
  end.

(** [n > 0] on a number that may be [NaN] *)
Definition positive (n : option Z) : bool :=
  match n with
  | Some z => 0 <? z
  | None => false
  end.

(** The [for] loop of [parseMessage] from index [i] on, with the current
    value of [contentLength]; the result is the final [jsonStart]. *)
Fixpoint scanHeaders (lines : list string) (i : nat) (contentLength : option Z)
  : Z :=
  match lines with
  | [] => -1
  | line :: rest =>
      if startsWith line "Content-Length:" then
        scanHeaders rest (S i) (parseInt (trim (substring 15 line)))
      else if String.eqb line "" && positive contentLength then
        Z.of_nat i + 1
      else scanHeaders rest (S i) contentLength
  end.

(** [parseMessage(buffer)]; the result [JNull] is the [null] of the
    source. *)
Definition parseMessage (buffer : string) : jsval :=
  let content := buffer in
  let lines := split content CRLF in
  let jsonStart := scanHeaders lines 0 (Some 0) in
  if 0 <=? jsonStart then
    let jsonContent := join (skipn (Z.to_nat jsonStart) lines) NL in
    match Json.parse jsonContent with
    | Some v => v
    | None => JNull
    end
  else JNull.

(** The [data] listener of [startStdio]: the chunk is appended to the
    buffer, and the buffer is emptied when a message comes out of it.
    The result is the new buffer and the message handled, if any. *)
Definition onData (buffer chunk : string) : string * option jsval :=
  let buffer := buffer ++ chunk in
  let message := parseMessage buffer in
  if truthy message then ("", Some message) else (buffer, None).

(** The messages handled while a sequence of chunks arrives. *)
Fixpoint deliver (buffer : string) (chunks : list string) : list jsval :=
  match chunks with
  | [] => []
  | chunk :: rest =>
      match onData buffer chunk with
      | (buffer', Some m) => m :: deliver buffer' rest
      | (buffer', None) => deliver buffer' rest
      end
  end.

(** A frame as a client writes it: the header line with the declared
    length, a blank line, the body. *)
Definition frame (declared body : string) : string :=
  "Content-Length: " ++ declared ++ CRLF ++ CRLF ++ body.

End MockLSPServer.

(** ** [path.join] of Node, POSIX flavour *)

Module Path.
Import Js.

Fixpoint endsWithSlash (p : string) : bool :=
  match p with
  | "" => false
  | String c "" => code c =? 47
  | String _ r => endsWithSlash r
  end.

(** One segment of [normalizeString]; the segments kept so far are held
    last first. *)
Definition step (allowAboveRoot : bool) (res : list string) (seg : string)
  : list string :=
  if String.eqb seg "" || String.eqb seg "." then res
  else if String.eqb seg ".." then
    match res with
    | top :: below =>
        if String.eqb top ".."
        then (if allowAboveRoot then ".." :: res else res)
        else below
    | [] => if allowAboveRoot then [".."] else []
    end
  else seg :: res.

Definition normalizeString (p : string) (allowAboveRoot : bool) : string :=
  join (rev (fold_left (step allowAboveRoot) (split p "/") [])) "/".

Definition normalize (p : string) : string :=
  if String.eqb p "" then "." else
  let isAbsolute := startsWith p "/" in
  let trailingSeparator := endsWithSlash p in
  let q := normalizeString p (negb isAbsolute) in
  if String.eqb q "" then
    (if isAbsolute then "/" else if trailingSeparator then "./" else ".")
  else
    let q := if trailingSeparator then q ++ "/" else q in
    if isAbsolute then "/" ++ q else q.

(** [path.join(a, b)] *)
Definition join2 (a b : string) : string :=
  if String.eqb a "" then (if String.eqb b "" then "." else normalize b)
  else if String.eqb b "" then normalize a
  else normalize (a ++ "/" ++ b).

End Path.

(** ** The extension ([src/extension.ts]) *)

Module Extension.
Import Js.

(** *** The host and the state *)

(** [BinaryLocation], what [BinaryFinder.find] returns. *)
Record Location := { path : string; source : string }.

(** What [client.sendRequest] resolves to, or the message of the error it
    rejects with. *)
Inductive Reply :=
| Result (v : jsval)
| Rejected (message : string).

Record Request := { method : string; params : jsval }.

(** The answers of the collaborators that are not part of this file: the
    platform, [BinaryFinder], [Downloader], the language client, the user
    in front of a prompt, the clock. *)
Record Host := {
  platform : string;                         (* os.platform() *)
  find : option Location;                    (* new BinaryFinder(context).find() *)
  downloadLatestBinary : option string;      (* new Downloader(context).downloadLatestBinary() *)
  start : string -> option string;           (* client.start() for a server path: the error, if it throws *)
  stop : option string;                      (* client.stop(): the error, if it throws *)
  pick : string -> option string;            (* the button chosen on a message with buttons *)
  respond : list Request -> Request -> Reply;(* the answer to a request, given the earlier ones *)
  workspaceFolder : option string;           (* vscode.workspace.workspaceFolders?.[0]?.uri.fsPath *)
  now : string                               (* new Date().toISOString() *)
}.

(** The [LanguageClient] created by [startLanguageServer]. *)
Record Client := {
  command : string;
  cwd : option string;
  trace : jsval
}.

Record File := { mode : Z; data : string }.

(** A line of the output channel: plain text, or text followed by a
    pretty-printed value ([JSON.stringify(v, null, 2)]). *)
Inductive Line :=
| Text (s : string)
| Dump (s : string) (v : jsval).

(** What the user is shown.  [ShowSaved title files] is the notification
    "<title> saved to:" built from [savedFiles]; it lists the files
    relative to the workspace folder. *)
Inductive Ui :=
| ShowInfo (message : string)
| ShowWarning (message : string)
| ShowError (message : string)
| ShowSaved (title : string) (savedFiles : list string)
| Reveal (dir : string).

(** The state the extension reads and writes: the module variable
    [client], the settings of the section [traverse-lsp] by their names,
    the file system, and what has been written to the output channel,
    shown to the user and handed to the client.

    The file system is a store of files and directories: [mkdirSync] and
    [writeFileSync] of a string always go through (a disk that refuses
    them, for lack of permission or because a file stands where a
    directory is expected, is not modelled).  [written] lists the calls
    of [writeFileSync] that went through, path and content, in order. *)
Record World := {
  client : option Client;
  config : gmap string jsval;
  files : gmap string File;
  dirs : gset string;
  written : list (string * string);
  channel : list Line;
  shown : list Ui;
  requests : list Request
}.

Definition with_client (x : option Client) (w : World) : World :=
  {| client := x; config := config w; files := files w; dirs := dirs w;
     written := written w; channel := channel w; shown := shown w; requests := requests w |}.

Definition with_files (x : gmap string File) (w : World) : World :=
  {| client := client w; config := config w; files := x; dirs := dirs w;
     written := written w; channel := channel w; shown := shown w; requests := requests w |}.

Definition with_dirs (x : gset string) (w : World) : World :=
  {| client := client w; config := config w; files := files w; dirs := x;
     written := written w; channel := channel w; shown := shown w; requests := requests w |}.

Definition with_written (x : list (string * string)) (w : World) : World :=
  {| client := client w; config := config w; files := files w; dirs := dirs w;
     written := x; channel := channel w; shown := shown w; requests := requests w |}.

Definition with_channel (x : list Line) (w : World) : World :=
  {| client := client w; config := config w; files := files w; dirs := dirs w;
     written := written w; channel := x; shown := shown w; requests := requests w |}.

Definition with_shown (x : list Ui) (w : World) : World :=
  {| client := client w; config := config w; files := files w; dirs := dirs w;
     written := written w; channel := channel w; shown := x; requests := requests w |}.

Definition with_requests (x : list Request) (w : World) : World :=
  {| client := client w; config := config w; files := files w; dirs := dirs w;
     written := written w; channel := channel w; shown := shown w; requests := x |}.

(** *** Computations that change the world and may throw *)

Inductive outcome (A : Type) :=
| Ok (a : A)
| Throw (message : string).
Arguments Ok {A} a.
Arguments Throw {A} message.

Definition M (A : Type) : Type := World -> outcome A * World.

Definition ret {A} (a : A) : M A := fun w => (Ok a, w).

Definition bind {A B} (m : M A) (k : A -> M B) : M B :=
  fun w =>
    match m w with
    | (Ok a, w') => k a w'
    | (Throw e, w') => (Throw e, w')
    end.

Notation "x <- m ;; k" := (bind m (fun x => k))
  (at level 100, m at level 99, k at level 200, right associativity, only parsing).
Notation "m ;; k" := (bind m (fun _ => k))
  (at level 100, k at level 200, right associativity, only parsing).

Definition throw {A} (message : string) : M A := fun w => (Throw message, w).

(** [try { m } catch (error) { handler(error.message) }] *)
Definition try {A} (m : M A) (handler : string -> M A) : M A :=
  fun w =>
    match m w with
    | (Ok a, w') => (Ok a, w')
    | (Throw e, w') => handler e w'
    end.

Definition when (b : bool) (m : M unit) : M unit := if b then m else ret tt.

(** [outputChannel.appendLine(s)] *)
Definition appendLine (s : string) : M unit :=
  fun w => (Ok tt, with_channel (channel w ++ [Text s])%list w).

Definition appendDump (s : string) (v : jsval) : M unit :=
  fun w => (Ok tt, with_channel (channel w ++ [Dump s v])%list w).

Definition show (u : Ui) : M unit :=
  fun w => (Ok tt, with_shown (shown w ++ [u])%list w).

Definition getClient : M (option Client) := fun w => (Ok (client w), w).

Definition setClient (c : option Client) : M unit :=
  fun w => (Ok tt, with_client c w).

(** A string in a condition: [undefined] and the empty string are false. *)
Definition given (s : option string) : bool :=
  match s with
  | Some p => negb (String.eqb p "")
  | None => false
  end.

(** [a || b] on optional strings *)
Definition orElse (a b : option string) : option string :=
  if given a then a else b.

(** *** The file system *)

(** [fs.existsSync(p)] *)
Definition existsSync (p : string) : M bool :=
  fun w => (Ok (bool_decide (is_Some (files w !! p)) || bool_decide (p ∈ dirs w)), w).

(** The directories on the way to [p], [p] included. *)
Fixpoint ancestors (base : string) (segments : list string) : list string :=
  match segments with
  | [] => []
  | seg :: rest =>
      if String.eqb seg "" then ancestors (base ++ "/") rest
      else (base ++ seg) :: ancestors (base ++ seg ++ "/") rest
  end.

(** [fs.mkdirSync(p, { recursive: true })] *)
Definition mkdirSync (p : string) : M unit :=
  fun w => (Ok tt, with_dirs (dirs w ∪ list_to_set (ancestors "" (split p "/"))) w).

(** [fs.writeFileSync(p, v)]: only a string is written (the values of a
    JSON answer are no buffers), anything else is a [TypeError].  A new
    file gets mode [0o644]. *)
Definition writeFileSync (p : string) (v : jsval) : M unit :=
  fun w =>
    match v with
    | JStr s =>
        let m := match files w !! p with Some f => mode f | None => 420 end in
        (Ok tt, with_written (written w ++ [(p, s)])%list
                  (with_files (<[p := {| mode := m; data := s |}]> (files w)) w))
    | _ => (Throw "The data argument must be of type string or an instance of Buffer, TypedArray, or DataView", w)
    end.

(** The permission bits written [0o ugo] in the source. *)
Definition octal (u g o : Z) : Z := u * 64 + g * 8 + o.

(** [fs.chmodSync(p, m)] *)
Definition chmodSync (p : string) (m : Z) : M unit :=
  fun w =>
    match files w !! p with
    | Some f => (Ok tt, with_files (<[p := {| mode := m; data := data f |}]> (files w)) w)
    | None => (Throw ("ENOENT: no such file or directory, chmod '" ++ p ++ "'"), w)
    end.

(** *** The functions of the extension *)

Section WithHost.

Variable host : Host.

(** [showInformationMessage(message, ...buttons)], awaited: the message is
    shown and the user's choice comes back. *)
Definition ask (message : string) : M (option string) :=
  show (ShowInfo message);; ret (pick host message).

Definition getServerPath : M (option string) :=
  appendLine "Looking for Traverse LSP server binary...";;
  match find host with
  | Some location =>
      appendLine ("Found binary from " ++ source location ++ ": " ++ path location);;
      when (negb (String.eqb (platform host) "win32")
            && negb (String.eqb (source location) "settings"))
        (try (chmodSync (path location) (octal 7 5 5);;
              appendLine "Made binary executable")
             (fun err => appendLine ("Failed to make binary executable: Error: " ++ err)));;
      ret (Some (path location))
  | None =>
      appendLine "No binary found";;
      ret None
  end.

Definition startLanguageServer (serverPath : string) : M unit :=
  appendLine ("Starting Traverse LSP server from: " ++ serverPath);;
  traceSetting <- (fun w => (Ok (default JUndef (config w !! "trace.server")), w));;
  setClient (Some {| command := serverPath;
                     cwd := workspaceFolder host;
                     trace := if truthy traceSetting then traceSetting else JStr "off" |});;
  match start host serverPath with
  | None => appendLine "✅ Traverse LSP server started successfully"
  | Some error =>
      appendLine ("❌ Failed to start LSP server: Error: " ++ error);;
      throw error
  end.

Definition initializeServer : M unit :=
  appendLine "Initializing LSP server...";;
  found <- getServerPath;;
  serverPath <-
    (if given found then ret found
     else
       appendLine "Server binary not found, prompting user...";;
       action <- ask "Traverse LSP server not found. Would you like to download it?";;
       appendLine ("User selected: " ++ default "Cancel" (orElse action None));;
       if bool_decide (action = Some "Download") then
         appendLine "Starting download...";;
         let downloadedPath := downloadLatestBinary host in
         if given downloadedPath then
           appendLine ("Downloaded to: " ++ default "" downloadedPath);;
           ret downloadedPath
         else
           appendLine "Download failed or was cancelled";;
           ret found
       else ret found);;
  if negb (given serverPath) then
    appendLine "❌ Server binary not found and download cancelled or failed";;
    show (ShowWarning ("Traverse LSP server is not installed. Use " ++ QUOTE ++ "Traverse: Download Language Server" ++ QUOTE ++ " command to install it."))
  else
    try (startLanguageServer (default "" serverPath))
        (fun error =>
           appendLine ("❌ Failed to start server: Error: " ++ error);;
           show (ShowError ("Failed to start Traverse LSP server: Error: " ++ error))).

Definition findProjectRoot (startPath : option string) : M string :=
  let workspaceRoot := workspaceFolder host in
  if negb (given workspaceRoot) then
    appendLine "No workspace folder found";;
    ret (default "" (orElse startPath (Some "")))
  else
    appendLine ("Using workspace root as project root: " ++ default "" workspaceRoot);;
    ret (default "" workspaceRoot).

Definition ensureLSPClient : M bool :=
  c <- getClient;;
  if bool_decide (is_Some c) then ret true else
  appendLine "LSP server not running, checking for binary...";;
  serverPath <- getServerPath;;
  started <-
    (if given serverPath then
       try (startLanguageServer (default "" serverPath);; ret true)
           (fun error => appendLine ("Failed to start server: " ++ error);; ret false)
     else ret false);;
  if started then ret true else
  action <- ask "Traverse LSP server is not installed. Would you like to download it now?";;
  if bool_decide (action = Some "Download") then
    appendLine "Starting download...";;
    let downloadedPath := downloadLatestBinary host in
    if given downloadedPath then
      try (startLanguageServer (default "" downloadedPath);; ret true)
          (fun error =>
             appendLine ("Failed to start downloaded server: " ++ error);;
             show (ShowError ("Failed to start server: " ++ error));;
             ret false)
    else ret false
  else ret false.

(** [client!.sendRequest(method, params)] *)
Definition sendRequest (method : string) (params : jsval) : M jsval :=
  fun w =>
    match client w with
    | None => (Throw "Cannot read properties of undefined (reading 'sendRequest')", w)
    | Some _ =>
        let request := {| method := method; params := params |} in
        let w' := with_requests (requests w ++ [request])%list w in
        match respond host (requests w) request with
        | Result v => (Ok v, w')
        | Rejected error => (Throw error, w')
        end
    end.

(** The extension chosen for a single-format diagram (the [let extension]
    block of [handleDiagramResult]). *)
Definition detectExtension (diagram : string) : string :=
  if includes diagram "digraph" || includes diagram "strict graph" then ".dot"
  else if includes diagram "sequenceDiagram"
          || includes diagram "graph TD"
          || includes diagram "graph LR"
          || includes diagram "flowchart" then ".mmd"
  else ".md".

Definition showNat (n : nat) : string := NilEmpty.string_of_uint (Nat.to_uint n).

(** [new Date().toISOString().replace(/[:.]/g, '-').split('T')[0]] *)
Definition timestampOf (iso : string) : string :=
  hd "" (split (replace_colon_dot iso) "T").

(** The output directory for a title (the [if] chain on
    [title.toLowerCase()]). *)
Definition outputDirFor (fsPath title : string) : string :=
  let baseDir := Path.join2 fsPath "traverse-output" in
  if includes (toLowerCase title) "call graph" then Path.join2 baseDir "call-graphs"
  else if includes (toLowerCase title) "sequence" then Path.join2 baseDir "sequence-diagrams"
  else if includes (toLowerCase title) "storage" then Path.join2 baseDir "storage-reports"
  else Path.join2 baseDir "diagrams".

(** The file name without its extension,
    [`${title.toLowerCase().replace(/\s+/g, '-')}-${timestamp}`]. *)
Definition fileStem (title timestamp : string) : string :=
  replace_spaces (toLowerCase title) "-" ++ "-" ++ timestamp.

(** The part of [handleDiagramResult] that writes the files, from
    [const savedFiles = []] to the end of the [else if (result.diagram)]
    branch; the result is [savedFiles]. *)
Definition saveDiagrams (result : jsval) (outputDir name : string)
  : M (list string) :=
  if truthy (get result "data") then
    let data := get result "data" in
    afterDot <-
      (if truthy (get data "dot") then
         let dotFile := Path.join2 outputDir (name ++ ".dot") in
         writeFileSync dotFile (get data "dot");;
         appendLine ("Saved DOT file: " ++ dotFile);;
         ret [dotFile]
       else ret []);;
    if truthy (get data "mermaid") then
      let mermaidFile := Path.join2 outputDir (name ++ ".mmd") in
      writeFileSync mermaidFile (get data "mermaid");;
      appendLine ("Saved Mermaid file: " ++ mermaidFile);;
      ret (afterDot ++ [mermaidFile])%list
    else ret afterDot
  else if truthy (get result "diagram") then
    match get result "diagram" with
    | JStr diagram =>
        let extension := detectExtension diagram in
        let filename := Path.join2 outputDir (name ++ extension) in
        writeFileSync filename (JStr diagram);;
        appendLine ("Saved diagram file: " ++ filename);;
        ret [filename]
    | JArr items =>
        (* Array.prototype.includes answers, then writeFileSync refuses
           the array *)
        writeFileSync (Path.join2 outputDir (name ++ ".md")) (JArr items);;
        ret []
    | _ => throw "result.diagram.includes is not a function"
    end
  else ret [].

(** The notification's follow-up (opening the folder or the files once the
    user clicks) runs after the handler has returned and touches neither
    the files nor the session; it is left out. *)
Definition handleDiagramResult (result : jsval) (title : string) : M unit :=
  appendLine ("Handling result for " ++ title);;
  if negb (truthy result) || negb (truthy (get result "success")) then
    appendLine ("Failed to generate " ++ title ++ " - no result or success=false");;
    show (ShowError ("Failed to generate " ++ title))
  else
  match workspaceFolder host with
  | None =>
      appendLine "No workspace folder found for saving results";;
      show (ShowError "No workspace folder found")
  | Some fsPath =>
      let timestamp := timestampOf (now host) in
      let outputDir := outputDirFor fsPath title in
      appendLine ("Output directory: " ++ outputDir);;
      present <- existsSync outputDir;;
      when (negb present)
        (mkdirSync outputDir;;
         appendLine "Created output directory");;
      savedFiles <- saveDiagrams result outputDir (fileStem title timestamp);;
      if (0 <? length savedFiles)%nat then
        appendLine ("Successfully saved " ++ showNat (length savedFiles) ++ " file(s)");;
        show (ShowSaved title savedFiles)
      else
        appendLine "No files were saved - no diagram data in response"
  end.

(** The params of an analysis request:
    [{ command, arguments: [{ workspace_folder: projectRoot }] }]. *)
Definition requestPayload (command projectRoot : string) : jsval :=
  JObj [("command", JStr command);
        ("arguments", JArr [JObj [("workspace_folder", JStr projectRoot)]])].

(** *** The commands ([registerCommands]); [uri] is the [fsPath] of the
    folder the command was invoked on, if any. *)

Definition generateCallGraph (uri : option string) : M unit :=
  appendLine "Command: Generate Call Graph";;
  ready <- ensureLSPClient;;
  if negb ready then
    appendLine "LSP server not available - command cancelled"
  else
  let clickedPath := orElse uri (workspaceFolder host) in
  projectRoot <- findProjectRoot clickedPath;;
  if String.eqb projectRoot "" then
    appendLine "Error: No project root found";;
    show (ShowError "No project root found")
  else
  appendLine ("Project root: " ++ projectRoot);;
  try (result <-
         (let payload := requestPayload "traverse.generateCallGraph.workspace" projectRoot in
          appendDump "Sending request to LSP server with payload: " payload;;
          sendRequest "workspace/executeCommand" payload);;
       appendLine "Received response from server";;
       handleDiagramResult result "Call Graph")
      (fun error =>
         appendLine ("Error: " ++ error);;
         show (ShowError ("Failed to generate call graph: " ++ error))).

Definition generateSequenceDiagram (uri : option string) : M unit :=
  appendLine "Command: Generate Sequence Diagram";;
  ready <- ensureLSPClient;;
  if negb ready then
    appendLine "LSP server not available - command cancelled"
  else
  let clickedPath := orElse uri (workspaceFolder host) in
  projectRoot <- findProjectRoot clickedPath;;
  if String.eqb projectRoot "" then
    appendLine "Error: No project root found";;
    show (ShowError "No project root found")
  else
  appendLine ("Project root: " ++ projectRoot);;
  try (result <-
         (appendLine "Sending request to LSP server...";;
          sendRequest "workspace/executeCommand"
            (requestPayload "traverse.generateSequenceDiagram.workspace" projectRoot));;
       appendLine "Received response from server";;
       handleDiagramResult result "Sequence Diagram")
      (fun error =>
         appendLine ("Error: " ++ error);;
         show (ShowError ("Failed to generate sequence diagram: " ++ error))).

Definition generateAllAnalyses (uri : option string) : M unit :=
  appendLine "Command: Generate All Analyses";;
  ready <- ensureLSPClient;;
  if negb ready then
    appendLine "LSP server not available - command cancelled"
  else
  let clickedPath := orElse uri (workspaceFolder host) in
  projectRoot <- findProjectRoot clickedPath;;
  if String.eqb projectRoot "" then
    appendLine "Error: No project root found";;
    show (ShowError "No project root found")
  else
  appendLine ("Project root: " ++ projectRoot);;
  try ((appendLine "Generating call graph...";;
        try (callGraphResult <-
               sendRequest "workspace/executeCommand"
                 (requestPayload "traverse.generateCallGraph.workspace" projectRoot);;
             handleDiagramResult callGraphResult "Call Graph")
            (fun error => appendLine ("Call graph error: " ++ error));;
        appendLine "Generating sequence diagram...";;
        try (sequenceResult <-
               sendRequest "workspace/executeCommand"
                 (requestPayload "traverse.generateSequenceDiagram.workspace" projectRoot);;
             handleDiagramResult sequenceResult "Sequence Diagram")
            (fun error => appendLine ("Sequence diagram error: " ++ error));;
        appendLine "Generating storage analysis...";;
        try (storageResult <-
               sendRequest "workspace/executeCommand"
                 (requestPayload "traverse.analyzeStorage.workspace" projectRoot);;
             handleDiagramResult storageResult "Storage Analysis")
            (fun error => appendLine ("Storage analysis error: " ++ error)));;
       appendLine "All analyses generation completed";;
       let outputDir := Path.join2 projectRoot "traverse-output" in
       selection <- ask "All analyses generated successfully";;
       when (bool_decide (selection = Some "Open Output Folder"))
         (show (Reveal outputDir)))
      (fun error =>
         appendLine ("Error: " ++ error);;
         show (ShowError ("Failed to generate all analyses: " ++ error))).

Definition generateStorageAnalysis (uri : option string) : M unit :=
  appendLine "Command: Generate Storage Analysis";;
  ready <- ensureLSPClient;;
  if negb ready then
    appendLine "LSP server not available - command cancelled"
  else
  let clickedPath := orElse uri (workspaceFolder host) in
  projectRoot <- findProjectRoot clickedPath;;
  if String.eqb projectRoot "" then
    appendLine "Error: No project root found";;
    show (ShowError "No project root found")
  else
  appendLine ("Project root: " ++ projectRoot);;
  try (result <-
         (appendLine "Sending request to LSP server...";;
          sendRequest "workspace/executeCommand"
            (requestPayload "traverse.analyzeStorage.workspace" projectRoot));;
       appendLine "Received response from server";;
       handleDiagramResult result "Storage Analysis")
      (fun error =>
         appendLine ("Error: " ++ error);;
         show (ShowError ("Failed to analyze storage: " ++ error))).

(** [client.stop()] *)
Definition stopClient : M unit :=
  match stop host with
  | None => ret tt
  | Some error => throw error
  end.

Definition restartCommand (_ : option string) : M unit :=
  appendLine "Command: Restart Language Server";;
  c <- getClient;;
  if negb (bool_decide (is_Some c)) then
    appendLine "Server not running, attempting to start...";;
    _ <- ensureLSPClient;;
    ret tt
  else
  try (appendLine "Stopping server...";;
       stopClient;;
       setClient None;;
       appendLine "Server stopped, restarting...";;
       initializeServer;;
       show (ShowInfo "Traverse LSP server restarted"))
      (fun error =>
         appendLine ("Error restarting: " ++ error);;
         show (ShowError ("Failed to restart server: " ++ error))).

Definition downloadServerCommand (_ : option string) : M unit :=
  appendLine "Command: Download Language Server";;
  appendLine "Starting download process...";;
  let downloadPath := downloadLatestBinary host in
  if given downloadPath then
    appendLine ("Downloaded successfully to: " ++ default "" downloadPath);;
    action <- ask "Server downloaded successfully. Start the language server now?";;
    when (bool_decide (action = Some "Start"))
      (appendLine "Starting server with downloaded binary...";;
       c <- getClient;;
       when (bool_decide (is_Some c))
         (stopClient;;
          setClient None);;
       startLanguageServer (default "" downloadPath))
  else
    appendLine "Download failed or cancelled".

(** The commands the extension registers, in the order of the
    [registerCommand] calls. *)
Definition registerCommands : list (string * (option string -> M unit)) :=
  [("traverse.generateCallGraph", generateCallGraph);
   ("traverse.generateSequenceDiagram", generateSequenceDiagram);
   ("traverse.generateAllAnalyses", generateAllAnalyses);
   ("traverse.generateStorageAnalysis", generateStorageAnalysis);
   ("traverse.restart", restartCommand);
   ("traverse.downloadServer", downloadServerCommand)].

Fixpoint handlerOf (id : string) (commands : list (string * (option string -> M unit)))
  : option (option string -> M unit) :=
  match commands with
  | [] => None
  | (id', handler) :: rest =>
      if String.eqb id id' then Some handler else handlerOf id rest
  end.

(** [vscode.commands.executeCommand(id, uri)]: the handler registered
    under [id] runs; an unknown [id] is rejected. *)
Definition executeCommand (id : string) (uri : option string) : M unit :=
  match handlerOf id registerCommands with
  | Some handler => handler uri
  | None => throw ("command '" ++ id ++ "' not found")
  end.

End WithHost.

(** A world with no session, no settings changed by the user, an empty
    disk and nothing shown yet. *)
Definition fresh : World :=
  {| client := None; config := ∅; files := ∅; dirs := ∅; written := [];
     channel := []; shown := []; requests := [] |}.

End Extension.

(** * The words of the statements *)

Import Js Extension.








(** The project root a command works on: what [findProjectRoot] returns
    for the folder the command was invoked on. *)
Definition projectRoot (h : Host) (uri : option string) : string :=
  match fst (findProjectRoot h (orElse uri (workspaceFolder h)) fresh) with
  | Ok root => root
  | Throw _ => ""
  end.


Definition analysisCommands : list string :=
  ["traverse.generateCallGraph"; "traverse.generateSequenceDiagram";
   "traverse.generateStorageAnalysis"; "traverse.generateAllAnalyses"].

Definition downloadPrompt : string :=
  "Traverse LSP server is not installed. Would you like to download it now?".

Definition callGraphReply : jsval :=
  JObj [("success", JBool true);
        ("data", JObj [("dot", JStr "digraph G { A -> B; }")])].



Definition shadowedReply : jsval :=
  JObj [("success", JBool true); ("data", JObj []); ("diagram", JStr "digraph G { A -> B; }")].

Definition installed : Location :=
  {| path := "/home/dev/.config/Code/User/globalStorage/traverse/traverse-lsp";
     source := "storage" |}.

(** A Linux host with an installed binary, the workspace [/proj] open and
    a server that answers every request with [callGraphReply]. *)
Definition demoHost : Host :=
  {| platform := "linux";
     find := Some installed;
     downloadLatestBinary := None;
     start := fun _ => None;
     stop := None;
     pick := fun _ => None;
     respond := fun _ _ => Result callGraphReply;
     workspaceFolder := Some "/proj";
     now := "2025-03-04T10:20:30.123Z" |}.

(** The binary as a download leaves it: readable and writable by its
    owner, mode [0o600]. *)
Definition installedDisk : gmap string File :=
  {[ path installed := {| mode := octal 6 0 0; data := "ELF" |} ]}.

(** A world with a running session. *)
Definition running : World :=
  with_client (Some {| command := path installed; cwd := Some "/proj"; trace := JStr "off" |})
    (with_files installedDisk fresh).

Definition chunkingOn (w : World) : World :=
  {| client := client w; config := <["enableChunking" := JBool true]> (config w);
     files := files w; dirs := dirs w; written := written w;
     channel := channel w; shown := shown w; requests := requests w |}.

(** The first object of the [arguments] of a request. *)
Definition firstArgument (request : Request) : jsval :=
  match get (params request) "arguments" with
  | JArr (argument :: _) => argument
  | _ => JUndef
  end.


(** A host with no binary anywhere and a user who dismisses prompts. *)
Definition bareHost : Host :=
  {| platform := "linux";
     find := None;
     downloadLatestBinary := None;
     start := fun _ => None;
     stop := None;
     pick := fun _ => None;
     respond := fun _ _ => Result callGraphReply;
     workspaceFolder := Some "/proj";
     now := "2025-03-04T10:20:30.123Z" |}.

(** * Properties *)

(** ** The embedding at work *)

Section Examples.
Import MockLSPServer.

Example split_crlf :
  split ("a" ++ CRLF ++ "b" ++ CRLF ++ CRLF ++ "c") CRLF = ["a"; "b"; ""; "c"].
Proof. reflexivity. Qed.

Example split_empty : split "" CRLF = [""].
Proof. reflexivity. Qed.

Example trim_both_ends : trim "  42 " = "42".
Proof. reflexivity. Qed.

Example parseInt_decimal : parseInt " 42abc" = Some 42.
Proof. reflexivity. Qed.

Example parseInt_hex : parseInt "0x1f" = Some 31.
Proof. reflexivity. Qed.

Example parseInt_nan : parseInt "length" = None.
Proof. reflexivity. Qed.

Example parse_object :
  Json.parse ("{" ++ QUOTE ++ "id" ++ QUOTE ++ ": 1, " ++ QUOTE ++ "ok" ++ QUOTE ++ ": [true, null, -2.5e3]}")
  = Some (JObj [("id", JNum 1 0); ("ok", JArr [JBool true; JNull; JNum (-25) 2])]).
Proof. vm_compute. reflexivity. Qed.

Example parse_unfinished : Json.parse ("{" ++ QUOTE ++ "id" ++ QUOTE ++ ": 1") = None.
Proof. vm_compute. reflexivity. Qed.

Example parse_trailing : Json.parse "{} {}" = None.
Proof. vm_compute. reflexivity. Qed.

Example join_workspace :
  Path.join2 (Path.join2 "/proj/" "traverse-output") "call-graphs"
  = "/proj/traverse-output/call-graphs".
Proof. reflexivity. Qed.

Example join_dots : Path.join2 "/a/../b/./c//" "x" = "/b/c/x".
Proof. reflexivity. Qed.

Example join_above_root : Path.join2 "a/../.." "x" = "../x".
Proof. reflexivity. Qed.

Example timestamp_date : timestampOf "2025-03-04T10:20:30.123Z" = "2025-03-04".
Proof. reflexivity. Qed.

Example stem_of_title : fileStem "Sequence  Diagram" "2025-03-04" = "sequence-diagram-2025-03-04".
Proof. reflexivity. Qed.

Example extension_graph_first : detectExtension "digraph G { flowchart }" = ".dot".
Proof. reflexivity. Qed.

Example extension_markdown : detectExtension "# Storage Analysis" = ".md".
Proof. reflexivity. Qed.

End Examples.

(** ** Strings *)

Section StringFacts.
Import Js.

Lemma append_assoc (a b c : string) : (a ++ b) ++ c = a ++ (b ++ c).
Proof. induction a as [|x a IH]; simpl; [reflexivity | now rewrite IH]. Qed.

Lemma startsWith_app (p b : string) : startsWith (p ++ b) p = true.
Proof.
  induction p as [|c p IH]; cbn [startsWith append]; [reflexivity|].
  now rewrite Ascii.eqb_refl.
Qed.


(** Passing the rest of a separator that has just been matched. *)
Lemma split_go_skip sep r b :
  split_go sep (String.length r) (r ++ b) = split_go sep 0 b.
Proof. induction r as [|c r IH]; cbn [String.length append split_go]; auto. Qed.

(** A piece with no occurrence of the separator's first character, then
    the separator: the piece is the first element of the split. *)
Lemma split_line c rest a b :
  lacks c a = true ->
  split (a ++ String c rest ++ b) (String c rest) = a :: split b (String c rest).
Proof.
  unfold split. induction a as [|x a IH]; intros H.
  - cbn [append split_go].
    rewrite (startsWith_app (String c rest) b : startsWith (String c (rest ++ b)) _ = true).
    cbn [String.length Nat.pred]. now rewrite split_go_skip.
  - cbn [lacks] in H. apply andb_true_iff in H as [Hx Ha].
    apply negb_true_iff in Hx.
    change (String x a ++ String c rest ++ b)
      with (String x (a ++ String c rest ++ b)).
    cbn [split_go startsWith]. rewrite Hx. cbn [andb].
    now rewrite (IH Ha).
Qed.


Lemma all_chars_lacks (p : ascii -> bool) c s :
  p c = false -> all_chars p s = true -> lacks c s = true.
Proof.
  intros Hc. induction s as [|x s IH]; cbn [all_chars lacks]; [reflexivity|].
  intros [Hx Hs]%andb_true_iff. rewrite (IH Hs), andb_true_r.
  apply negb_true_iff. destruct (Ascii.eqb_spec c x) as [->|]; congruence.
Qed.

Lemma digit_not_space c : is_digit c = true -> is_space c = false.
Proof. unfold is_digit, is_space. intros H. lia. Qed.

Lemma trimEnd_digits ds : all_chars is_digit ds = true -> trimEnd ds = ds.
Proof.
  induction ds as [|c ds IH]; cbn [all_chars trimEnd]; [reflexivity|].
  intros [Hc Hds]%andb_true_iff. rewrite (IH Hds), (digit_not_space _ Hc).
  destruct ds; reflexivity.
Qed.

Lemma trim_digits ds : all_chars is_digit ds = true -> trim (" " ++ ds) = ds.
Proof.
  intros H. unfold trim. cbn [append trimStart].
  change (is_space " ") with true. cbv iota.
  replace (trimStart ds) with ds; [apply (trimEnd_digits _ H)|].
  destruct ds as [|c ds]; [reflexivity|]. cbn [all_chars trimStart] in *.
  apply andb_true_iff in H as [Hc _]. now rewrite (digit_not_space _ Hc).
Qed.





End StringFacts.

(** ** The mock server's frame reader *)

Section ParseMessage.
Import Js MockLSPServer.

(** The lines of a frame whose declared length is written in digits. *)
Lemma frame_lines ds body :
  all_chars is_digit ds = true ->
  split (frame ds body) CRLF = ("Content-Length: " ++ ds) :: "" :: split body CRLF.
Proof.
  intros Hds. unfold frame.
  rewrite <- (append_assoc "Content-Length: " ds).
  unfold CRLF. rewrite split_line.
  - now rewrite (split_line CR (String LF "") "" body eq_refl
                 : split (String CR (String LF "") ++ body) _ = _).
  - cbn [append lacks]. change (lacks CR ds = true).
    apply (all_chars_lacks is_digit); [reflexivity | exact Hds].
Qed.

(** C2, as amended.  For a buffer [Content-Length: N CRLF CRLF body] with
    a positive decimal [N], [parseMessage] returns the JSON value of all
    the text after the blank line (its CRLFs read as LF), and [null] when
    that text is not JSON: [N] is only tested for being positive, it is
    not compared with the length of the body, and the frame ends where
    the buffer ends. *)
Theorem C2_parseMessage_reads_to_end_of_buffer ds n body :
  all_chars is_digit ds = true -> parseInt ds = Some n -> 0 < n ->
  parseMessage (frame ds body) =
    match Json.parse (join (split body CRLF) NL) with
    | Some v => v
    | None => JNull
    end.
Proof.
  intros Hds Hn Hpos. unfold parseMessage.
  rewrite (frame_lines _ _ Hds). cbv zeta.
  cbn [scanHeaders].
  change (startsWith ("Content-Length: " ++ ds) "Content-Length:") with true.
  cbv iota.
  change (substring 15 ("Content-Length: " ++ ds)) with (" " ++ ds).
  rewrite (trim_digits _ Hds), Hn.
  change (startsWith "" "Content-Length:") with false. cbv iota.
  change (String.eqb "" "") with true.
  unfold positive. destruct (Z.ltb_spec 0 n) as [_|]; [|lia].
  cbn [andb]. reflexivity.
Qed.

Lemma C2_parseMessage_reads_to_end_of_buffer_witness :
  all_chars is_digit "42" = true /\ parseInt "42" = Some 42 /\ 0 < 42 /\
  parseMessage (frame "42" "{}") = JObj [].
Proof.
  split; [reflexivity|]. split; [reflexivity|]. split; [lia|].
  rewrite (C2_parseMessage_reads_to_end_of_buffer "42" 42 "{}");
    [reflexivity | reflexivity | reflexivity | lia].
Defined.

(** C2 as stated fails: a header that declares 42 bytes followed by the
    two bytes of an empty object is parsed at once. *)
Lemma C2_short_body_is_parsed :
  ~ (forall ds n body,
        all_chars is_digit ds = true -> parseInt ds = Some n ->
        Z.of_nat (String.length body) < n ->
        parseMessage (frame ds body) = JNull).
Proof.
  intros H. specialize (H "42" 42 "{}" eq_refl eq_refl ltac:(cbn; lia)).
  vm_compute in H. discriminate H.
Qed.

(** The same on a well-formed frame that arrives in two chunks: nine
    bytes are declared, the object and a final line feed; the listener
    of [startStdio] handles the message when the first eight are there,
    and the line feed that follows starts the next buffer. *)
Lemma message_handled_before_its_last_byte :
  let body := "{" ++ QUOTE ++ "id" ++ QUOTE ++ ":1}" in
  String.length (body ++ NL) = 9%nat /\
  onData "" (frame "9" body) = ("", Some (JObj [("id", JNum 1 0)])) /\
  deliver "" [frame "9" body; NL] = [JObj [("id", JNum 1 0)]] /\
  fst (onData (fst (onData "" (frame "9" body))) NL) = NL.
Proof. vm_compute. repeat split; reflexivity. Qed.

End ParseMessage.

(** ** [path.join] with a plain last segment *)

Module PathFacts.
Import Js Path.


(** What [join2 dir _] puts before a segment. *)
Definition base (dir : string) : string :=
  (if startsWith dir "/" then "/" else "") ++
  match rev (fold_left (step (negb (startsWith dir "/"))) (split dir "/") []) with
  | [] => ""
  | xs => join xs "/" ++ "/"
  end.









End PathFacts.

(** ** Time stamps and file names *)








(** ** The result handler *)



Lemma success_is_object result :
  truthy (get result "success") = true -> truthy result = true.
Proof. destruct result; try discriminate; reflexivity. Qed.

(** Running a computation whose branches are known. *)
Ltac run :=
  cbv [bind ret throw try when appendLine appendDump show existsSync mkdirSync
       writeFileSync chmodSync getClient setClient ask];
  cbn [fst snd negb orb andb app length Nat.ltb Nat.leb
       client config files dirs written channel shown requests
       with_client with_files with_dirs with_written with_channel with_shown
       with_requests].








(** C5.  For an absent result ([undefined] or [null]) and for a result
    whose [success] is [false], the handler writes no file, reports no
    saved path (it shows the failure message instead) and returns
    normally. *)
Theorem C5_failed_result_writes_nothing h w result title :
  result = JUndef \/ result = JNull \/ get result "success" = JBool false ->
  let r := handleDiagramResult h result title w in
  fst r = Ok tt /\
  written (snd r) = written w /\
  files (snd r) = files w /\
  shown (snd r) = app (shown w) [ShowError ("Failed to generate " ++ title)].
Proof.
  intros H.
  assert (Hguard : negb (truthy result) || negb (truthy (get result "success")) = true).
  { destruct H as [-> | [-> | ->]]; [reflexivity | reflexivity |].
    cbn [truthy negb]. apply orb_true_r. }
  unfold handleDiagramResult. rewrite Hguard.
  cbv [bind appendLine show fst snd]. cbn. auto.
Qed.

Lemma C5_failed_result_writes_nothing_witness :
  get (JObj [("success", JBool false)]) "success" = JBool false /\
  written (snd (handleDiagramResult demoHost (JObj [("success", JBool false)])
                  "Call Graph" fresh)) = [].
Proof.
  split; [reflexivity|].
  exact (proj1 (proj2 (C5_failed_result_writes_nothing demoHost fresh
                         (JObj [("success", JBool false)]) "Call Graph"
                         (or_intror (or_intror eq_refl))))).
Defined.







(** [handleDiagramResult] looks at a successful result through its
    [data] alone when [data] is true in a condition. *)
Lemma handle_reads_data_only h w title result1 result2 :
  truthy (get result1 "success") = true ->
  truthy (get result2 "success") = true ->
  get result1 "data" = get result2 "data" ->
  truthy (get result1 "data") = true ->
  handleDiagramResult h result1 title w = handleDiagramResult h result2 title w.
Proof.
  intros H1 H2 E Hd.
  unfold handleDiagramResult, saveDiagrams.
  rewrite (success_is_object _ H1), (success_is_object _ H2), H1, H2, <- E, Hd.
  reflexivity.
Qed.

(** C10.  For a successful result with both a [data] object and a
    [diagram] string, the handler does what it does for the same [data]
    with no [diagram] at all; in particular, when [data] has neither a
    [dot] nor a [mermaid] worth writing, no file is written although
    [diagram] is there. *)
Theorem C10_data_hides_diagram h w title result fields diagram :
  truthy (get result "success") = true ->
  get result "data" = JObj fields ->
  get result "diagram" = JStr diagram ->
  let r := handleDiagramResult h result title w in
  r = handleDiagramResult h
        (JObj [("success", JBool true); ("data", JObj fields)]) title w /\
  (truthy (get (JObj fields) "dot") = false ->
   truthy (get (JObj fields) "mermaid") = false ->
   fst r = Ok tt /\ written (snd r) = written w /\ files (snd r) = files w).
Proof.
  intros Hok Hdata Hdiag. split.
  - apply handle_reads_data_only; auto. now rewrite Hdata.
  - intros Hdot Hmm. unfold handleDiagramResult, saveDiagrams.
    rewrite (success_is_object _ Hok), Hok, Hdata, Hdot, Hmm.
    cbn [truthy negb orb].
    destruct (workspaceFolder h); run; [|auto].
    destruct (bool_decide _ || bool_decide _); run; auto.
Qed.

Lemma C10_data_hides_diagram_witness :
  truthy (get shadowedReply "success") = true /\
  get shadowedReply "data" = JObj [] /\
  get shadowedReply "diagram" = JStr "digraph G { A -> B; }" /\
  written (snd (handleDiagramResult demoHost shadowedReply "Call Graph" fresh)) = [].
Proof.
  split; [reflexivity|]. split; [reflexivity|]. split; [reflexivity|].
  exact (proj1 (proj2 (proj2 (C10_data_hides_diagram demoHost fresh "Call Graph"
                                shadowedReply [] "digraph G { A -> B; }"
                                eq_refl eq_refl eq_refl) eq_refl eq_refl))).
Defined.

(** ** The commands *)















Lemma bind_appendLine {B} s (k : unit -> M B) w :
  bind (appendLine s) k w = k tt (with_channel (channel w ++ [Text s])%list w).
Proof. reflexivity. Qed.


Lemma bind_fst_ok {A B} (m : M A) (k : A -> M B) w a :
  fst (m w) = Ok a -> bind m k w = k a (snd (m w)).
Proof. unfold bind. destruct (m w) as [[x|e] w1]; cbn; [intros [= ->]; reflexivity | discriminate]. Qed.







(** Without a session and without a binary, a declined prompt or a failed
    download makes [ensureLSPClient] answer [false]; nothing is started
    and nothing is sent. *)
Lemma ensure_unavailable h w :
  client w = None -> find h = None ->
  pick h downloadPrompt <> Some "Download" \/ given (downloadLatestBinary h) = false ->
  exists w',
    ensureLSPClient h w = (Ok false, w') /\
    client w' = None /\ requests w' = requests w /\
    written w' = written w /\ files w' = files w.
Proof.
  intros Hc Hf Hno.
  unfold ensureLSPClient, getServerPath. run. rewrite Hc, Hf.
  cbn [bool_decide decide_rel given]. run.
  fold downloadPrompt.
  destruct (decide (pick h downloadPrompt = Some "Download")) as [E|E].
  - destruct Hno as [Hno|Hno]; [contradiction|].
    rewrite (bool_decide_eq_true_2 _ E), Hno. run. eexists. repeat split; auto.
  - rewrite (bool_decide_eq_false_2 _ E). eexists. repeat split; auto.
Qed.

(** C9.  With no session and no binary located, when the user does not
    choose the download or the download yields nothing, [ensureLSPClient]
    answers [false], and each of the four analysis commands returns
    normally without sending a request, starting a session or writing a
    file. *)
Theorem C9_unavailable_server_sends_nothing h w uri id :
  client w = None -> find h = None ->
  pick h downloadPrompt <> Some "Download" \/ given (downloadLatestBinary h) = false ->
  In id analysisCommands ->
  fst (ensureLSPClient h w) = Ok false /\
  let r := executeCommand h id uri w in
  fst r = Ok tt /\ requests (snd r) = requests w /\ client (snd r) = None /\
  written (snd r) = written w.
Proof.
  intros Hc Hf Hno Hid. split.
  - destruct (ensure_unavailable h w Hc Hf Hno) as (w' & E & _). now rewrite E.
  - cbn [analysisCommands In] in Hid.
    destruct Hid as [<-|[<-|[<-|[<-|[]]]]];
      cbn [executeCommand handlerOf registerCommands String.eqb Ascii.eqb Bool.eqb];
      cbv zeta;
      unfold generateCallGraph, generateSequenceDiagram, generateStorageAnalysis,
        generateAllAnalyses;
      rewrite bind_appendLine;
      match goal with
      | |- context [bind (ensureLSPClient h) _ ?w0] =>
          destruct (ensure_unavailable h w0 Hc Hf Hno) as (w' & E & H1 & H2 & H3 & _);
          rewrite (bind_fst_ok _ _ w0 false) by (now rewrite E);
          rewrite E
      end;
      run; auto.
Qed.

Lemma C9_unavailable_server_sends_nothing_witness :
  client fresh = None /\ find bareHost = None /\
  pick bareHost downloadPrompt <> Some "Download" /\
  In "traverse.generateCallGraph" analysisCommands /\
  fst (ensureLSPClient bareHost fresh) = Ok false /\
  requests (snd (executeCommand bareHost "traverse.generateCallGraph" None fresh)) = [].
Proof.
  assert (Hp : pick bareHost downloadPrompt <> Some "Download") by discriminate.
  assert (Hi : In "traverse.generateCallGraph" analysisCommands) by (left; reflexivity).
  split; [reflexivity|]. split; [reflexivity|]. split; [exact Hp|]. split; [exact Hi|].
  pose proof (C9_unavailable_server_sends_nothing bareHost fresh None
                "traverse.generateCallGraph" eq_refl eq_refl (or_introl Hp) Hi)
    as (He & _ & Hr & _).
  split; [exact He | exact Hr].
Defined.

(** ** Chunking *)

Lemma toggleChunking_not_registered h :
  handlerOf "traverse.toggleChunking" (registerCommands h) = None.
Proof. reflexivity. Qed.

Lemma requestPayload_has_no_chunking cmd root :
  firstArgument {| method := "workspace/executeCommand"; params := requestPayload cmd root |}
  = JObj [("workspace_folder", JStr root)].
Proof. reflexivity. Qed.

(** C1, evaluated on the code.  With chunking enabled in the settings and
    a session running, executing [traverse.toggleChunking] is rejected (no
    such command is registered) and the setting keeps its value; the
    request sent by a call-graph generation that follows has
    [{workspace_folder}] as its first argument, with no [chunking]
    field. *)
Theorem C1_toggle_missing_and_no_chunking_field :
  let toggled := executeCommand demoHost "traverse.toggleChunking" None (chunkingOn running) in
  let r := executeCommand demoHost "traverse.generateCallGraph" None (snd toggled) in
  fst toggled = Throw "command 'traverse.toggleChunking' not found" /\
  config (snd toggled) !! "enableChunking" = Some (JBool true) /\
  fst r = Ok tt /\
  map firstArgument (requests (snd r)) = [JObj [("workspace_folder", JStr "/proj")]] /\
  map (fun request => get (firstArgument request) "chunking") (requests (snd r)) = [JUndef].
Proof. vm_compute. repeat split; reflexivity. Qed.

(** ** Permissions of the located binary *)

(** C6, evaluated on the code.  On Linux, a binary found in the
    extension's storage with mode [0o600] is returned with mode [0o755]:
    the execute bits of group and others are set as well as the owner's. *)
Theorem C6_installed_binary_made_world_executable :
  let r := getServerPath demoHost (with_files installedDisk fresh) in
  fst r = Ok (Some (path installed)) /\
  mode <$> (files (snd r) !! path installed) = Some (octal 7 5 5) /\
  Z.land (octal 7 5 5) (octal 0 1 1) = octal 0 1 1.
Proof. vm_compute. repeat split; reflexivity. Qed.

(** So it is for every binary that does not come from the settings, on
    every platform but Windows. *)
Lemma getServerPath_marks_755 h w location f :
  find h = Some location ->
  String.eqb (platform h) "win32" = false ->
  String.eqb (source location) "settings" = false ->
  files w !! path location = Some f ->
  fst (getServerPath h w) = Ok (Some (path location)) /\
  mode <$> (files (snd (getServerPath h w)) !! path location) = Some (octal 7 5 5).
Proof.
  intros Hf Hp Hs Hfile. unfold getServerPath. rewrite Hf, Hp, Hs. run.
  rewrite Hfile. run. split; [reflexivity|]. now rewrite lookup_insert_eq.
Qed.

(** The settings path is returned as it is: no file is touched. *)
Lemma getServerPath_settings h w location :
  find h = Some location -> source location = "settings" ->
  fst (getServerPath h w) = Ok (Some (path location)) /\
  files (snd (getServerPath h w)) = files w.
Proof.
  intros Hf Hs. unfold getServerPath. rewrite Hf, Hs.
  change (String.eqb "settings" "settings") with true.
  rewrite andb_false_r. run. auto.
Qed.

(** Marking the binary executable twice is the same as once. *)
Lemma chmodSync_idempotent p m w :
  snd (chmodSync p m (snd (chmodSync p m w))) = snd (chmodSync p m w).
Proof.
  unfold chmodSync. destruct (files w !! p) as [f|] eqn:E; cbn [snd files with_files].
  - rewrite lookup_insert_eq. cbn [snd with_files files data]. unfold with_files. cbn.
    now rewrite insert_insert_eq.
  - now rewrite E.
Qed.
